(** * brainsprite.py: colormap deduplication and the sprite pathway

    The development has two parts.

    - [Colormap]: the palette reduction that
      [src/tests/test_brainsprite.py] exercises under the name
      [_deduplicate_cmap] and that the specification calls
      [deduplicate].  Its body is not part of the sources, so it is
      modelled from the specification, and the repository test is
      embedded next to it as a check on any implementation.
    - [Py] and [Brainsprite]: a small error-and-state monad with Python's
      name lookup, and the functions of [src/brainsprite.py] written in
      it statement by statement. *)

From Stdlib Require Import ZArith QArith Qcanon Lia.
From stdpp Require Import base decidable option list numbers strings.

Set Warnings "-register-all".

Local Open Scope Z_scope.

(* ===================================================================== *)
(** ** Colormap deduplication                                            *)
(* ===================================================================== *)

Module Colormap.

(** A color entry is a 4-tuple (red, green, blue, alpha).  Channel values
    are exact rationals in canonical form, so that equality of entries is
    equality of all four channel values. *)
Definition Color : Type := Qc * Qc * Qc * Qc.

(** An ordered sequence of color entries; its size is its length. *)
Definition Palette : Type := list Color.

Definition black : Color := (0, 0, 0, 1)%Qc.
Definition white : Color := (1, 1, 1, 1)%Qc.

(** The two variants of the specification's design notes: a continuous
    mapping from a scalar in [0,1] to a color, or a fixed table. *)
Inductive SourceColormap : Type :=
  | NamedContinuous (f : Qc → Color)
  | CustomDiscrete (entries : list Color).

Inductive Error : Type :=
  | InvalidArgument.

(** Number of natively available slots of a discrete source. *)
Definition discrete_slots (src : SourceColormap) : option nat :=
  match src with
  | NamedContinuous _ => None
  | CustomDiscrete entries => Some (length entries)
  end.

(** The [i]-th of [k] evenly spaced points of [0,1]. *)
Definition linspace (k i : nat) : Qc :=
  if bool_decide (k ≤ 1)%nat then 0%Qc
  else Q2Qc (Z.of_nat i # Pos.of_nat (k - 1)).

(** Some entry occurs at two positions. *)
Definition duplicated (p : Palette) : Prop :=
  ∃ i j c, i ≠ j ∧ p !! i = Some c ∧ p !! j = Some c.

(** The entries at different positions differ. *)
Definition pairwise_distinct (p : Palette) : Prop :=
  ∀ i j c, p !! i = Some c → p !! j = Some c → i = j.

(** Two entries are duplicates when all four channels are equal. *)
Fixpoint has_duplicates (p : Palette) : bool :=
  match p with
  | [] => false
  | c :: rest => bool_decide (c ∈ rest) || has_duplicates rest
  end.

Section Deduplicate.

(** How a discrete source with more slots than requested is reduced.
    Step 1 of the specification defines the sample of a continuous
    source and of a discrete source of exactly [target_size] slots
    only; the remaining case is left to this parameter. *)
Variable resample : list Color → nat → Palette.

(** Modelled from the spec: step 1 of section 4.1, the sampling done by
    [_deduplicate_cmap], whose body is not under src/. *)
Definition sample (src : SourceColormap) (k : nat) : Palette :=
  match src with
  | NamedContinuous f => (λ i, f (linspace k i)) <$> seq 0 k
  | CustomDiscrete entries =>
      if bool_decide (length entries = k) then entries
      else resample entries k
  end.

(** Modelled from the spec: [_deduplicate_cmap], which the test calls
    and whose body is not under src/.  The error conditions, then
    steps 1 to 4 of section 4.1. *)
Definition deduplicate (src : SourceColormap) (target_size : Z)
    (allow_annotation : bool) : Error + (Palette * bool) :=
  if bool_decide (target_size ≤ 0) then inl InvalidArgument
  else
    match discrete_slots src with
    | Some n =>
        if bool_decide (Z.of_nat n < target_size) then inl InvalidArgument
        else
          let p := sample src (Z.to_nat target_size) in
          if has_duplicates p then inr (p, false)
          else inr (p, allow_annotation)
    | None =>
        let p := sample src (Z.to_nat target_size) in
        if has_duplicates p then inr (p, false)
        else inr (p, allow_annotation)
    end.

End Deduplicate.

(** The reduction to the first [k] entries.  It serves where a statement
    needs a concrete reduction and the source has exactly [k] slots, so
    that [sample] does not consult it. *)
Definition first_entries (entries : list Color) (k : nat) : Palette :=
  take k entries.

(** *** The repository test, [test_deduplicate_cmap]

    The returned colormap is read through [cmap.N] (its length) and
    [cmap(i)] (its [i]-th entry). *)

Definition implementation : Type :=
  SourceColormap → Z → bool → Error + (Palette * bool).

(** [cmaplist.count(c)] *)
Definition count (c : Color) (cmaplist : list Color) : nat :=
  length (filter (λ c', c' = c) cmaplist).

(** Lines 7 to 18: the named colormap ['cold_hot'] with [n_colors = 4]. *)
Definition test_cold_hot (cold_hot : Qc → Color) (impl : implementation)
    : bool :=
  let n_colors := 4 in
  match impl (NamedContinuous cold_hot) n_colors true with
  | inr (cmap, value) =>
      bool_decide (Z.of_nat (length cmap) = n_colors)
      && value
      && forallb (λ c, bool_decide (count c cmap = 1%nat)) cmap
  | inl _ => false
  end.

(** [LinearSegmentedColormap.from_list('Custom cmap',
     [[0, 0, 0], [1, 1, 1], [0, 0, 0], [1, 1, 1]], 4)] *)
Definition cmap_custom : list Color := [black; white; black; white].

(** Lines 20 to 31: the custom colormap with [n_colors = 2]. *)
Definition test_custom (impl : implementation) : bool :=
  let n_colors := 2 in
  match impl (CustomDiscrete cmap_custom) n_colors true with
  | inr (cmap, value) =>
      bool_decide (length cmap = length cmap_custom)
      && negb value
  | inl _ => false
  end.

Definition test_deduplicate_cmap (cold_hot : Qc → Color)
    (impl : implementation) : bool :=
  test_cold_hot cold_hot impl && test_custom impl.

End Colormap.

(* ===================================================================== *)
(** ** Python name lookup and calls as a monad                           *)
(* ===================================================================== *)

Module Py.

Inductive value : Type :=
  | VNone
  | VBool (b : bool)
  | VStr (s : string)
  | VTuple (items : list value)
  | VGlobal (name : string)   (* the object bound to a module-level name,
                                 or reached from one by attributes *)
  | VObj (id : nat).          (* any other object: image, array, buffer *)

Inductive exn : Type :=
  | NameError (name : string)
  | UnboundLocalError (name : string)
  | LibraryError (kind : string).

(** [isinstance(e, NameError)]: [UnboundLocalError] is a subclass of
    [NameError]. *)
Definition is_NameError (e : exn) : bool :=
  match e with
  | NameError _ | UnboundLocalError _ => true
  | LibraryError _ => false
  end.

Inductive outcome (A : Type) : Type :=
  | Return (a : A)
  | Raise (e : exn).
Arguments Return {A} a.
Arguments Raise {A} e.

(** A call that left the module: callee, positional and keyword
    arguments. *)
Record event : Type := Called {
  callee : value;
  positional : list value;
  keywords : list (string * value)
}.

(** The local variables of the running function and the calls made so
    far, in both the latest first. *)
Record frame : Type := Frame {
  locals : list (string * value);
  trace : list event
}.

(** [x in names] *)
Fixpoint mem (x : string) (names : list string) : bool :=
  match names with
  | [] => false
  | y :: rest => String.eqb x y || mem x rest
  end.

Fixpoint lookup_local (x : string) (bindings : list (string * value))
    : option value :=
  match bindings with
  | [] => None
  | (y, v) :: rest => if String.eqb x y then Some v else lookup_local x rest
  end.

Definition M (A : Type) : Type := frame → outcome A * frame.

Definition ret {A} (a : A) : M A := λ fr, (Return a, fr).

Definition raise {A} (e : exn) : M A := λ fr, (Raise e, fr).

Definition bind {A B} (m : M A) (k : A → M B) : M B := λ fr,
  match m fr with
  | (Return a, fr') => k a fr'
  | (Raise e, fr') => (Raise e, fr')
  end.

#[global] Instance M_ret : MRet M := @ret.
#[global] Instance M_bind : MBind M := λ A B k m, bind m k.

(** Names bound by the import statements of [brainsprite.py]. *)
Definition imported_names : list string :=
  ["warnings"; "np"; "os"; "encodebytes"; "json"; "nb"; "numbers"; "cm";
   "mpl_cm"; "colors"; "_safe_get_data"; "fast_abs_percentile"; "plt";
   "imsave"; "_load_anat"; "_get_colorbar_and_data_ranges";
   "load_mni152_template"; "HTMLDocument"; "check_niimg_3d"; "image";
   "BytesIO"; "StringIO"; "find_xyz_cut_coords"].

(** Names bound by the [def] statements of [brainsprite.py]. *)
Definition defined_names : list string :=
  ["_get_text_data"; "_output_sprite"; "_output_sprite_bg"; "_output_cm";
   "_view_html"; "sprite_data"].

(** Names every module has, and the builtins the module calls. *)
Definition implicit_names : list string :=
  ["__file__"; "__name__"; "__doc__"; "open"; "getattr"].

(** Functions the module calls and neither defines nor imports. *)
Definition helper_names : list string :=
  ["_save_sprite"; "_bytesIO_to_base64"; "_save_cm"; "_mask_stat_map";
   "colorscale"; "_load_bg_img"; "_resample_stat_map"; "_get_cut_slices";
   "_json_view_data"; "_json_view_params"; "_json_view_to_html"].

Section Semantics.

(** Whether the helpers of [helper_names] are bound when a function of
    the module runs.  In the file as it is they are not. *)
Variable helpers_defined : bool.

(** What a call that leaves the module does, given the calls made
    before it (the latest first). *)
Variable extern :
  list event → value → list value → list (string * value) → outcome value.

Definition globals : list string :=
  imported_names ++ defined_names ++ implicit_names
    ++ (if helpers_defined then helper_names else []).

(** Reading a name inside a function whose local names are
    [fn_locals]: a local name is read from the frame, any other name
    from the module. *)
Definition load (fn_locals : list string) (x : string) : M value := λ fr,
  if mem x fn_locals then
    match lookup_local x (locals fr) with
    | Some v => (Return v, fr)
    | None => (Raise (UnboundLocalError x), fr)
    end
  else if mem x globals then (Return (VGlobal x), fr)
  else (Raise (NameError x), fr).

Definition store (x : string) (v : value) : M unit := λ fr,
  (Return (), Frame ((x, v) :: locals fr) (trace fr)).

(** The call itself, once the callee and the arguments are evaluated. *)
Definition apply (f : value) (pos : list value)
    (kw : list (string * value)) : M value := λ fr,
  (extern (trace fr) f pos kw,
   Frame (locals fr) (Called f pos kw :: trace fr)).

(** Expressions are evaluated left to right. *)
Fixpoint eval_list (es : list (M value)) : M (list value) :=
  match es with
  | [] => ret []
  | e :: es' => v ← e; vs ← eval_list es'; ret (v :: vs)
  end.

Fixpoint eval_keywords (es : list (string * M value))
    : M (list (string * value)) :=
  match es with
  | [] => ret []
  | (k, e) :: es' => v ← e; vs ← eval_keywords es'; ret ((k, v) :: vs)
  end.

(** A call expression: the callee first, then the arguments. *)
Definition call (f : M value) (pos : list (M value))
    (kw : list (string * M value)) : M value :=
  fv ← f; ps ← eval_list pos; ks ← eval_keywords kw; apply fv ps ks.

(** [e.a] *)
Definition attr (e : M value) (a : string) : M value :=
  v ← e;
  match v with
  | VGlobal n => ret (VGlobal (n +:+ "." +:+ a))
  | _ => apply (VGlobal "getattr") [v; VStr a] []
  end.

(** [e[k]] *)
Definition item (e k : M value) : M value :=
  v ← e; kv ← k; apply (VGlobal "operator.getitem") [v; kv] [].

(** [x = e] *)
Definition assign (x : string) (e : M value) : M unit :=
  v ← e; store x v.

Fixpoint store_all (xs : list string) (vs : list value) : M unit :=
  match xs, vs with
  | [], [] => ret ()
  | x :: xs', v :: vs' => store x v;; store_all xs' vs'
  | _, _ => raise (LibraryError "ValueError")
  end.

(** [x1, ..., xn = e] *)
Definition assign_tuple (xs : list string) (e : M value) : M unit :=
  v ← e;
  match v with
  | VTuple vs => store_all xs vs
  | _ => raise (LibraryError "TypeError")
  end.

(** [target[key] = e]: the right-hand side is evaluated before the
    target. *)
Definition assign_item (target key e : M value) : M unit :=
  v ← e; t ← target; k ← key;
  apply (VGlobal "operator.setitem") [t; k; v] [];; ret ().

(** [with mgr as x: body]; the arguments that describe the exception to
    [__exit__] are left out. *)
Definition with_as (mgr : M value) (x : string) (body : M value)
    : M value := λ fr,
  match (m ← mgr; v ← call (attr (ret m) "__enter__") [] [];
         store x v;; ret m) fr with
  | (Raise e, fr') => (Raise e, fr')
  | (Return m, fr') =>
      match body fr' with
      | (o, fr'') =>
          match call (attr (ret m) "__exit__") [] [] fr'' with
          | (Raise e, fr3) => (Raise e, fr3)
          | (Return _, fr3) => (o, fr3)
          end
      end
  end.

(** Calling a function of the module: a fresh frame holding the
    arguments; the result and the calls made. *)
Definition run_def (args : list (string * value)) (body : M value)
    (tr : list event) : outcome value * list event :=
  match body (Frame args tr) with
  | (o, fr) => (o, trace fr)
  end.

End Semantics.

End Py.

(* ===================================================================== *)
(** ** The functions of brainsprite.py                                   *)
(* ===================================================================== *)

Module Brainsprite.
Import Py.

(** The first duplicated name of a parameter list, which the compiler
    rejects ("duplicate argument in function definition"). *)
Fixpoint duplicate_argument (params : list string) : option string :=
  match params with
  | [] => None
  | p :: rest =>
      if mem p rest then Some p else duplicate_argument rest
  end.

(** Lines 121 to 148: the parameters of [sprite_data], in order. *)
Definition sprite_data_params : list string :=
  ["stat_map_img"; "bg_img"; "output_sprite"; "output_sprite_bg";
   "output_cm"; "id_viewer"; "id_sprite"; "id_sprite_bg"; "id_cm";
   "cut_coords"; "flag_value"; "colorbar"; "title"; "onclick";
   "threshold"; "annotate"; "draw_cross"; "black_bg"; "black_bg"; "cmap";
   "symmetric_cmap"; "dim"; "vmax"; "vmin"; "resampling_interpolation";
   "opacity"; "kwargs"].

(** Lines 240 to 247: the values the docstring of [sprite_data] lists
    under "Returns". *)
Definition sprite_data_documented_returns : list string :=
  ["view_js"; "view_html"].

(** Line 274: the expressions of the [return] statement of
    [sprite_data]. *)
Definition sprite_data_returned : list string := ["html_view"].

(** The local names of each function: its parameters and the names it
    assigns. *)
Definition _get_text_data_locals : list string :=
  ["data_name"; "data_path"; "f"].

Definition _output_sprite_locals : list string :=
  ["output_sprite"; "stat_map_img"; "mask_img"; "colors"; "cmap";
   "data"; "mask"; "stat_map_sprite"].

Definition _output_sprite_bg_locals : list string :=
  ["output_sprite_bg"; "bg_img"; "bg_min"; "bg_max"; "bg_data"].

Definition sprite_data_locals : list string :=
  sprite_data_params
    ++ ["mask_img"; "data"; "colors"; "bg_min"; "bg_max"; "cut_slices";
        "json_data"; "html_view"].

Definition is_None (v : value) : bool :=
  match v with VNone => true | _ => false end.

Section Functions.

Variable helpers_defined : bool.
Variable extern :
  list event → value → list value → list (string * value) → outcome value.

Abbreviation load := (load helpers_defined).
Abbreviation call := (call extern).
Abbreviation attr := (attr extern).
Abbreviation item := (item extern).

(** Lines 33 to 38. *)
Definition _get_text_data_body : M value :=
  let name := load _get_text_data_locals in
  assign "data_path"
    (call (attr (attr (name "os") "path") "join")
       [call (attr (attr (name "os") "path") "dirname")
          [name "__file__"] [];
        ret (VStr "data");
        name "datas_name"] []);;
  with_as extern
    (call (name "open") [name "data_path"; ret (VStr "rb")] []) "f"
    (call (attr (call (attr (name "f") "read") [] []) "decode")
       [ret (VStr "utf-8")] []).

Definition _get_text_data (data_name : value) :=
  run_def [("data_name", data_name)] _get_text_data_body.

(** Lines 41 to 55. *)
Definition _output_sprite_body : M value :=
  let name := load _output_sprite_locals in
  assign "data"
    (call (name "_safe_get_data") [name "stat_map_img"]
       [("ensure_finite", ret (VBool true))]);;
  assign "mask"
    (call (name "_safe_get_data") [name "mask_img"]
       [("ensure_finite", ret (VBool true))]);;
  o ← name "output_sprite";
  if is_None o then
    assign "stat_map_sprite" (call (name "BytesIO") [] []);;
    call (name "_save_sprite")
      [name "data"; name "stat_map_sprite";
       item (name "colors") (ret (VStr "vmax"));
       item (name "colors") (ret (VStr "vmin"));
       name "mask"; name "cmap"; ret (VStr "png")] [];;
    call (name "_bytesIO_to_base64") [name "stat_map_sprite"] []
  else
    call (name "_save_sprite")
      [name "data"; name "stat_map_sprite";
       item (name "colors") (ret (VStr "vmax"));
       item (name "colors") (ret (VStr "vmin"));
       name "mask"; name "cmap"; ret (VStr "png")] [];;
    ret (VStr "").

Definition _output_sprite
    (output_sprite stat_map_img mask_img colors cmap : value) :=
  run_def
    [("output_sprite", output_sprite); ("stat_map_img", stat_map_img);
     ("mask_img", mask_img); ("colors", colors); ("cmap", cmap)]
    _output_sprite_body.

(** Lines 58 to 71. *)
Definition _output_sprite_bg_body : M value :=
  let name := load _output_sprite_bg_locals in
  assign "bg_data"
    (call (name "_safe_get_data") [name "bg_img"]
       [("ensure_finite", ret (VBool true))]);;
  o ← name "output_sprite_bg";
  if is_None o then
    assign "output_sprite_bg" (call (name "BytesIO") [] []);;
    call (name "_save_sprite")
      [name "bg_data"; name "output_sprite_bg"; name "bg_max";
       name "bg_min"; ret VNone; ret (VStr "gray"); ret (VStr "png")] [];;
    call (name "_bytesIO_to_base64") [name "bg_sprite"] []
  else
    call (name "_save_sprite")
      [name "bg_data"; name "output_sprite_bg"; name "bg_max";
       name "bg_min"; ret VNone; ret (VStr "gray"); ret (VStr "png")] [];;
    ret (VStr "").

Definition _output_sprite_bg
    (output_sprite_bg bg_img bg_min bg_max : value) :=
  run_def
    [("output_sprite_bg", output_sprite_bg); ("bg_img", bg_img);
     ("bg_min", bg_min); ("bg_max", bg_max)]
    _output_sprite_bg_body.

(** Lines 250 to 266 of [sprite_data]: the statements before the
    assignment to [json_view['params']]. *)
Definition sprite_data_pipeline : M unit :=
  let name := load sprite_data_locals in
  assign_tuple ["mask_img"; "stat_map_img"; "data"; "threshold"]
    (call (name "_mask_stat_map")
       [name "stat_map_img"; name "threshold"] []);;
  assign "colors"
    (call (name "colorscale")
       [name "cmap"; call (attr (name "data") "ravel") [] []]
       [("threshold", name "threshold");
        ("symmetric_cmap", name "symmetric_cmap");
        ("vmax", name "vmax"); ("vmin", name "vmin")]);;
  assign_tuple ["bg_img"; "bg_min"; "bg_max"; "black_bg"]
    (call (name "_load_bg_img")
       [name "stat_map_img"; name "bg_img"; name "black_bg";
        name "dim"] []);;
  assign_tuple ["stat_map_img"; "mask_img"]
    (call (name "_resample_stat_map")
       [name "stat_map_img"; name "bg_img"; name "mask_img";
        name "resampling_interpolation"] []);;
  assign "cut_slices"
    (call (name "_get_cut_slices")
       [name "stat_map_img"; name "cut_coords"; name "threshold"] []);;
  assign "json_data"
    (call (name "_json_view_data")
       [name "bg_img"; name "stat_map_img"; name "mask_img";
        name "bg_min"; name "bg_max"; name "colors"; name "cmap";
        name "colorbar"] []).

(** Lines 268 to 271: the right-hand side of the assignment. *)
Definition sprite_data_params_call : M value :=
  let name := load sprite_data_locals in
  call (name "_json_view_params")
    [attr (name "stat_map_img") "shape";
     attr (name "stat_map_img") "affine";
     item (name "colors") (ret (VStr "vmin"));
     item (name "colors") (ret (VStr "vmax"));
     name "cut_slices"; name "black_bg"; name "opacity";
     name "draw_cross"; name "annotate"; name "title"; name "colorbar"]
    [("value", ret (VBool false))].

(** Lines 250 to 274. *)
Definition sprite_data_body : M value :=
  let name := load sprite_data_locals in
  sprite_data_pipeline;;
  assign_item extern (name "json_view") (ret (VStr "params"))
    sprite_data_params_call;;
  assign "html_view"
    (call (name "_json_view_to_html") [name "json_view"] []);;
  name "html_view".

(** [args]: the values the call binds to the parameters. *)
Definition sprite_data (args : list (string * value)) :=
  run_def args sprite_data_body.

End Functions.

(** A library in which every call returns: a tuple of the size the
    caller unpacks, or a fresh object. *)
Definition returning_extern (tr : list event) (f : value)
    (pos : list value) (kw : list (string * value)) : outcome value :=
  match f with
  | VGlobal "_mask_stat_map" | VGlobal "_load_bg_img" =>
      Return (VTuple [VObj 1; VObj 2; VObj 3; VObj 4])
  | VGlobal "_resample_stat_map" => Return (VTuple [VObj 1; VObj 2])
  | _ => Return (VObj (length tr))
  end.

(** [_safe_get_data(img, ensure_finite=True)] *)
Definition get_data_call (img : value) : event :=
  Called (VGlobal "_safe_get_data") [img] [("ensure_finite", VBool true)].

(** [BytesIO()] *)
Definition BytesIO_call : event := Called (VGlobal "BytesIO") [] [].

(** [_save_sprite(bg_data, buffer, bg_max, bg_min, None, 'gray', 'png')] *)
Definition save_bg_call (bg_data buffer bg_max bg_min : value) : event :=
  Called (VGlobal "_save_sprite")
    [bg_data; buffer; bg_max; bg_min; VNone; VStr "gray"; VStr "png"] [].

(** [os.path.dirname(__file__)] *)
Definition dirname_call : event :=
  Called (VGlobal "os.path.dirname") [VGlobal "__file__"] [].

(** What [extern] answers to a call made after the calls of [tr]. *)
Definition answer
    (extern : list event → value → list value → list (string * value)
              → outcome value)
    (tr : list event) (e : event) : outcome value :=
  extern tr (callee e) (positional e) (keywords e).

(** Every parameter of [sprite_data] bound to some object. *)
Definition sample_args : list (string * value) :=
  (λ p, (p, VObj 0)) <$> sprite_data_params.

End Brainsprite.

(* ===================================================================== *)
(** ** The rest of the sprite pathway, and the test module               *)
(* ===================================================================== *)

Module Pathway.
Import Py Brainsprite.

(** The local names of [_output_cm] and of [_view_html]: parameters, then
    assigned names. *)
Definition _output_cm_locals : list string :=
  ["output_cm"; "colors"; "stat_map_cm"].

Definition _view_html_params : list string :=
  ["bg_img"; "stat_map_img"; "mask_img"; "output_sprite";
   "output_sprite_bg"; "output_cm"; "id_viewer"; "id_sprite";
   "id_sprite_bg"; "id_cm"; "bg_min"; "bg_max"; "colors"; "cmap";
   "colorbar"].

Definition _view_html_locals : list string :=
  _view_html_params
    ++ ["html_view"; "stat_map_base64"; "bg_base64"; "cm_base64"].

Section Functions.

Variable helpers_defined : bool.
Variable extern :
  list event → value → list value → list (string * value) → outcome value.

Abbreviation load := (load helpers_defined).
Abbreviation call := (call extern).
Abbreviation attr := (attr extern).
Abbreviation item := (item extern).

(** [a + b] *)
Definition add (a b : M value) : M value :=
  x ← a; y ← b; apply extern (VGlobal "operator.add") [x; y] [].

(** The body of a function of the module run in a frame of its own; the
    calls it makes are added to the caller's. *)
Definition enter_def (params : list string) (body : M value)
    (vs : list value) : M value := λ fr,
  match run_def (zip params vs) body (trace fr) with
  | (o, tr') => (o, Frame (locals fr) tr')
  end.

(** A call of a function that the module defines: the callee, then the
    arguments, are evaluated in the caller. *)
Definition call_def (f : M value) (params : list string) (body : M value)
    (pos : list (M value)) : M value :=
  _ ← f; vs ← eval_list pos; enter_def params body vs.

(** Lines 74 to 84. *)
Definition _output_cm_body : M value :=
  let name := load _output_cm_locals in
  o ← name "output_cm";
  if is_None o then
    assign "stat_map_cm" (call (name "BytesIO") [] []);;
    call (name "_save_cm")
      [name "stat_map_cm"; item (name "colors") (ret (VStr "cmap"));
       ret (VStr "png")] [];;
    call (name "_bytesIO_to_base64") [name "stat_map_cm"] []
  else
    call (name "_save_cm")
      [name "stat_map_cm"; item (name "colors") (ret (VStr "cmap"));
       ret (VStr "png")] [];;
    ret (VStr "").

Definition _output_cm (output_cm colors : value) :=
  run_def [("output_cm", output_cm); ("colors", colors)] _output_cm_body.

(** Line 94 of [_view_html]. *)
Definition _view_html_load_snippet : M unit :=
  let name := load _view_html_locals in
  assign "html_view"
    (call_def (name "_get_text_data") ["data_name"]
       (_get_text_data_body helpers_defined extern)
       [ret (VStr "snippet_view.html")]).

(** Lines 95 to 118 of [_view_html]; a function that ends without a
    [return] statement returns [None]. *)
Definition _view_html_substitutions : M value :=
  let name := load _view_html_locals in
  let substitute key e :=
    call (attr (name "view_html") "safe_substitute")
      [ret (VStr key); e] [] in
  let base64 x := add (ret (VStr "data:image/png;base64,")) (name x) in
  substitute "3Dviewer" (name "id_viewer");;
  assign "stat_map_base64"
    (call_def (name "_output_sprite")
       ["output_sprite"; "stat_map_img"; "mask_img"; "colors"; "cmap"]
       (_output_sprite_body helpers_defined extern)
       [name "output_sprite"; name "stat_map_img"; name "mask_img";
        name "colors"; name "cmap"]);;
  o ← name "output_sprite";
  (if is_None o then substitute "$stat_map" (base64 "stat_map_base64")
   else substitute "$stat_map" (name "output_sprite"));;
  assign "bg_base64"
    (call_def (name "_output_sprite_bg")
       ["output_sprite_bg"; "bg_img"; "bg_min"; "bg_max"]
       (_output_sprite_bg_body helpers_defined extern)
       [name "output_sprite_bg"; name "bg_img"; name "bg_min";
        name "bg_max"]);;
  o ← name "output_sprite_bg";
  (if is_None o then substitute "$bg" (base64 "bg_base64")
   else substitute "$bg" (name "output_sprite_bg"));;
  assign "cm_base64"
    (call_def (name "_output_cm") ["output_cm"; "colors"] _output_cm_body
       [name "output_cm"; name "colors"]);;
  o ← name "output_cm";
  (if is_None o then substitute "$cm" (base64 "cm_base64")
   else substitute "$cm" (name "output_cm"));;
  ret VNone.

(** Lines 87 to 118. *)
Definition _view_html_body : M value :=
  _view_html_load_snippet;; _view_html_substitutions.

(** [args]: the values of the fifteen parameters, in order. *)
Definition _view_html (args : list value) :=
  run_def (zip _view_html_params args) _view_html_body.

End Functions.

(** [colors[key]] *)
Definition getitem_call (obj : value) (key : string) : event :=
  Called (VGlobal "operator.getitem") [obj; VStr key] [].

(** [_save_sprite(data, buffer, vmax, vmin, mask, cmap, 'png')] *)
Definition save_sprite_call (data buffer vmax vmin mask cmap : value)
    : event :=
  Called (VGlobal "_save_sprite")
    [data; buffer; vmax; vmin; mask; cmap; VStr "png"] [].

(** [_save_cm(buffer, cmap, 'png')] *)
Definition save_cm_call (buffer cmap : value) : event :=
  Called (VGlobal "_save_cm") [buffer; cmap; VStr "png"] [].

(** [_bytesIO_to_base64(buffer)] *)
Definition base64_call (buffer : value) : event :=
  Called (VGlobal "_bytesIO_to_base64") [buffer] [].

End Pathway.

Module TestModule.
Import Py.

(** Names bound by the import and [def] statements of
    [tests/test_brainsprite.py], and the names every module has. *)
Definition test_globals : list string :=
  ["warnings"; "np"; "LinearSegmentedColormap"; "test_deduplicate_cmap";
   "__file__"; "__name__"; "__doc__"].

(** The names [test_deduplicate_cmap] assigns; it has no parameter. *)
Definition test_locals : list string :=
  ["n_colors"; "cmap"; "value"; "cmaplist"; "mask"; "cmap_custom"].

(** Reading a name inside a function of a module whose names are
    [module_names]. *)
Definition load_from (module_names fn_locals : list string) (x : string)
    : M value := λ fr,
  if mem x fn_locals then
    match lookup_local x (locals fr) with
    | Some v => (Return v, fr)
    | None => (Raise (UnboundLocalError x), fr)
    end
  else if mem x module_names then (Return (VGlobal x), fr)
  else (Raise (NameError x), fr).

Section Test.

Variable extern :
  list event → value → list value → list (string * value) → outcome value.

(** Lines 6 to 10 of [test_deduplicate_cmap], followed by [rest], the
    statements from line 12 on.  [VObj 4] is the integer 4. *)
Definition test_deduplicate_cmap_body (rest : M value) : M value :=
  let name := load_from test_globals test_locals in
  assign "n_colors" (ret (VObj 4));;
  assign_tuple ["cmap"; "value"]
    (call extern (attr extern (name "html_stat_map") "_deduplicate_cmap")
       [ret (VStr "cold_hot")]
       [("n_colors", name "n_colors"); ("annotate", ret (VBool true))]);;
  rest.

Definition test_deduplicate_cmap_run (rest : M value) :=
  run_def [] (test_deduplicate_cmap_body rest).

End Test.

End TestModule.

(* ===================================================================== *)
(** ** Properties of the colormap deduplication                          *)
(* ===================================================================== *)

Module DedupProofs.
Import Colormap.

Lemma has_duplicates_false (p : Palette) :
  has_duplicates p = false ↔ NoDup p.
Proof.
  induction p as [|c rest IH]; simpl.
  - split; [intros _; constructor | done].
  - rewrite orb_false_iff, bool_decide_eq_false, IH, NoDup_cons. done.
Qed.

Lemma pairwise_distinct_NoDup (p : Palette) :
  pairwise_distinct p ↔ NoDup p.
Proof. unfold pairwise_distinct. by rewrite NoDup_alt. Qed.

Lemma duplicated_not_distinct (p : Palette) :
  duplicated p ↔ ¬ pairwise_distinct p.
Proof.
  split.
  - intros (i & j & c & Hne & Hi & Hj) Hd. apply Hne. by eapply Hd.
  - rewrite pairwise_distinct_NoDup.
    induction p as [|c rest IH]; intros Hnd.
    + destruct Hnd. constructor.
    + destruct (decide (c ∈ rest)) as [Hin|Hnin].
      * apply list_elem_of_lookup in Hin as [j Hj].
        exists 0%nat, (S j), c. done.
      * destruct IH as (i & j & d & Hne & Hi & Hj).
        { intros Hr. apply Hnd. by constructor. }
        exists (S i), (S j), d. split; [lia | done].
Qed.

Lemma has_duplicates_true (p : Palette) :
  has_duplicates p = true ↔ duplicated p.
Proof.
  rewrite duplicated_not_distinct, pairwise_distinct_NoDup,
    <- has_duplicates_false.
  destruct (has_duplicates p); naive_solver.
Qed.

Lemma length_sample_continuous resample (f : Qc → Color) (k : nat) :
  length (sample resample (NamedContinuous f) k) = k.
Proof. simpl. by rewrite length_fmap, length_seq. Qed.

Lemma sample_native resample (entries : list Color) :
  sample resample (CustomDiscrete entries) (length entries) = entries.
Proof. simpl. by rewrite bool_decide_eq_true_2. Qed.

(** The sample has the requested size for a continuous source and for
    a discrete source of exactly that many slots. *)
Lemma length_sample_exact resample src (k : Z) :
  0 ≤ k →
  discrete_slots src = None ∨ discrete_slots src = Some (Z.to_nat k) →
  Z.of_nat (length (sample resample src (Z.to_nat k))) = k.
Proof.
  intros Hk [Hc|Hn]; destruct src as [f|entries]; try done.
  - rewrite length_sample_continuous. lia.
  - injection Hn as Hn. rewrite <- Hn, sample_native. lia.
Qed.

(** What a call that returns has checked and computed. *)
Lemma deduplicate_returns resample src k allow p flag :
  deduplicate resample src k allow = inr (p, flag) →
  0 < k
  ∧ (∀ n, discrete_slots src = Some n → k ≤ Z.of_nat n)
  ∧ p = sample resample src (Z.to_nat k)
  ∧ flag = (if has_duplicates p then false else allow).
Proof.
  unfold deduplicate. case_bool_decide as Hk; [done|].
  destruct (discrete_slots src) as [n|] eqn:Hn.
  - case_bool_decide as Hlt; [done|]. simpl.
    destruct (has_duplicates (sample _ _ _)) eqn:Hd;
      intros [= <- <-]; rewrite Hd;
      (split; [lia|]; split; [intros ? [= <-]; lia | done]).
  - simpl. destruct (has_duplicates (sample _ _ _)) eqn:Hd;
      intros [= <- <-]; rewrite Hd; (split; [lia|]; done).
Qed.

(** A valid call returns the sample and the flag. *)
Lemma deduplicate_valid resample src k allow :
  0 < k →
  (∀ n, discrete_slots src = Some n → k ≤ Z.of_nat n) →
  deduplicate resample src k allow
  = inr (sample resample src (Z.to_nat k),
         if has_duplicates (sample resample src (Z.to_nat k)) then false
         else allow).
Proof.
  intros Hk Hn. unfold deduplicate.
  rewrite bool_decide_eq_false_2 by lia.
  destruct (discrete_slots src) as [n|].
  - specialize (Hn n eq_refl). rewrite bool_decide_eq_false_2 by lia.
    simpl. by destruct (has_duplicates _).
  - simpl. by destruct (has_duplicates _).
Qed.

(** Whatever passes the second half of the repository test returns four
    entries for the custom colormap and two requested colors, with the
    annotation turned off. *)
Lemma test_custom_native_size (impl : implementation) p flag :
  test_custom impl = true →
  impl (CustomDiscrete cmap_custom) 2 true = inr (p, flag) →
  length p = 4%nat ∧ flag = false.
Proof.
  unfold test_custom. intros Ht Hi. rewrite Hi in Ht.
  apply andb_true_iff in Ht as [Hn Hv].
  apply bool_decide_eq_true in Hn. apply negb_true_iff in Hv. done.
Qed.

(** *** The annotation flag *)

(** C2: when two of the sampled entries are equal, the returned flag is
    [False], whatever the caller asked for. *)
Theorem duplicates_disable_annotation resample src k allow p flag :
  deduplicate resample src k allow = inr (p, flag) →
  duplicated (sample resample src (Z.to_nat k)) →
  flag = false.
Proof.
  intros (_ & _ & -> & ->)%deduplicate_returns Hdup.
  apply has_duplicates_true in Hdup. by rewrite Hdup.
Qed.

Lemma duplicates_disable_annotation_witness :
  deduplicate first_entries (CustomDiscrete [black; black]) 2 true
  = inr ([black; black], false)
  ∧ duplicated
      (sample first_entries (CustomDiscrete [black; black]) (Z.to_nat 2))
  ∧ false = false.
Proof.
  assert (Hd : duplicated
            (sample first_entries (CustomDiscrete [black; black])
               (Z.to_nat 2))).
  { exists 0%nat, 1%nat, black. done. }
  split; [reflexivity|]. split; [exact Hd|].
  apply (duplicates_disable_annotation first_entries
           (CustomDiscrete [black; black]) 2 true [black; black] false).
  - reflexivity.
  - exact Hd.
Defined.

(** C3: when the sampled entries are pairwise distinct, the returned
    flag is the caller's [allow_annotation] and the returned palette is
    the sample. *)
Theorem distinct_sample_keeps_flag resample src k allow p flag :
  deduplicate resample src k allow = inr (p, flag) →
  pairwise_distinct (sample resample src (Z.to_nat k)) →
  flag = allow ∧ p = sample resample src (Z.to_nat k).
Proof.
  intros (_ & _ & -> & ->)%deduplicate_returns Hnd.
  apply pairwise_distinct_NoDup, has_duplicates_false in Hnd.
  by rewrite Hnd.
Qed.

Lemma distinct_sample_keeps_flag_witness :
  deduplicate first_entries (CustomDiscrete [black; white]) 2 true
  = inr ([black; white], true)
  ∧ pairwise_distinct
      (sample first_entries (CustomDiscrete [black; white]) (Z.to_nat 2))
  ∧ true = true
  ∧ [black; white]
    = sample first_entries (CustomDiscrete [black; white]) (Z.to_nat 2).
Proof.
  assert (Hd : pairwise_distinct
            (sample first_entries (CustomDiscrete [black; white])
               (Z.to_nat 2))).
  { apply pairwise_distinct_NoDup, has_duplicates_false. reflexivity. }
  split; [reflexivity|]. split; [exact Hd|].
  apply (distinct_sample_keeps_flag first_entries
           (CustomDiscrete [black; white]) 2 true [black; white] true).
  - reflexivity.
  - exact Hd.
Defined.

(** *** Errors *)

(** C4: the call fails with [InvalidArgument] exactly when [target_size]
    is not positive or the source is discrete and has fewer slots than
    [target_size]; every other call returns a palette and a flag. *)
Theorem invalid_argument_iff resample src k allow :
  (deduplicate resample src k allow = inl InvalidArgument
   ↔ k ≤ 0 ∨ ∃ n, discrete_slots src = Some n ∧ Z.of_nat n < k)
  ∧ (¬ (k ≤ 0 ∨ ∃ n, discrete_slots src = Some n ∧ Z.of_nat n < k) →
     ∃ p flag, deduplicate resample src k allow = inr (p, flag)).
Proof.
  assert (Hvalid : ¬ (k ≤ 0 ∨ ∃ n, discrete_slots src = Some n
                                    ∧ Z.of_nat n < k) →
                   ∃ p flag, deduplicate resample src k allow = inr (p, flag)).
  { intros Hn. eexists _, _. apply deduplicate_valid.
    - destruct (decide (0 < k)); [done|]. destruct Hn. left. lia.
    - intros n Hs. destruct (decide (k ≤ Z.of_nat n)); [done|].
      destruct Hn. right. exists n. split; [done | lia]. }
  split; [|exact Hvalid]. split.
  - intros He.
    destruct (decide (k ≤ 0)) as [|Hk]; [by left|].
    destruct (discrete_slots src) as [n|] eqn:Hs.
    + destruct (decide (Z.of_nat n < k)); [right; by exists n|].
      destruct Hvalid as (p & flag & Hr).
      { intros [?|(m & [= <-] & ?)]; done. }
      congruence.
    + destruct Hvalid as (p & flag & Hr).
      { intros [?|(m & [=] & ?)]; done. }
      congruence.
  - unfold deduplicate. intros [Hk|(n & Hs & Hlt)].
    + by rewrite bool_decide_eq_true_2.
    + case_bool_decide; [done|]. rewrite Hs.
      by rewrite bool_decide_eq_true_2.
Qed.


(** C6: a discrete source asked for exactly its native number of
    entries is returned entry for entry, in the same order. *)
Theorem native_size_returns_entries resample (entries : list Color) allow :
  entries ≠ [] →
  deduplicate resample (CustomDiscrete entries)
    (Z.of_nat (length entries)) allow
  = inr (entries, if has_duplicates entries then false else allow).
Proof.
  intros Hne.
  assert (0 < Z.of_nat (length entries)) as Hk.
  { destruct entries; [done | simpl; lia]. }
  rewrite (deduplicate_valid resample (CustomDiscrete entries) _ allow Hk).
  - rewrite Nat2Z.id, sample_native. reflexivity.
  - intros n [= <-]. lia.
Qed.

Lemma native_size_returns_entries_witness :
  deduplicate first_entries (CustomDiscrete cmap_custom)
    (Z.of_nat (length cmap_custom)) true
  = inr (cmap_custom, if has_duplicates cmap_custom then false else true).
Proof.
  apply (native_size_returns_entries first_entries cmap_custom true).
  discriminate.
Defined.

End DedupProofs.

(* ===================================================================== *)
(** ** Properties of the sprite pathway                                  *)
(* ===================================================================== *)

Module SpriteProofs.
Import Py Brainsprite.

(** Running a function of the module on symbolic arguments: evaluate,
    use what is known about a call that leaves the module, or split on
    what it answers. *)
Ltac run := vm_compute.

Ltac run_with H := vm_compute in H; rewrite H; vm_compute.

Ltac split_extern :=
  match goal with
  | |- context [match ?e with Return _ => _ | Raise _ => _ end] =>
      destruct e eqn:?
  end; vm_compute.

Lemma bind_return {A B} (m : M A) (k : A → M B) fr a fr' :
  m fr = (Return a, fr') → (m ≫= k) fr = k a fr'.
Proof. intros H. unfold mbind, M_bind, bind. by rewrite H. Qed.

Lemma bind_raise {A B} (m : M A) (k : A → M B) fr e fr' :
  m fr = (Raise e, fr') → (m ≫= k) fr = (Raise e, fr').
Proof. intros H. unfold mbind, M_bind, bind. by rewrite H. Qed.

Lemma bind_cases {A B} (m : M A) (k : A → M B) fr :
  (∃ a fr', m fr = (Return a, fr') ∧ (m ≫= k) fr = k a fr')
  ∨ (∃ e fr', (m ≫= k) fr = (Raise e, fr')).
Proof.
  unfold mbind, M_bind, bind. destruct (m fr) as [[a|e] fr']; eauto.
Qed.

(** [json_view] is neither a local name of [sprite_data] nor a name of
    the module. *)
Lemma load_json_view helpers_defined fr :
  load helpers_defined sprite_data_locals "json_view" fr
  = (Raise (NameError "json_view"), fr).
Proof. by destruct helpers_defined. Qed.

(** The assignment of lines 268 to 271 never completes. *)
Lemma assign_json_view_raises helpers_defined extern fr :
  ∃ e fr',
    assign_item extern
      (load helpers_defined sprite_data_locals "json_view")
      (ret (VStr "params"))
      (sprite_data_params_call helpers_defined extern) fr
    = (Raise e, fr').
Proof.
  unfold assign_item.
  destruct (bind_cases (sprite_data_params_call helpers_defined extern)
              (λ v, t ← load helpers_defined sprite_data_locals "json_view";
                    k ← ret (VStr "params");
                    apply extern (VGlobal "operator.setitem") [t; k; v] [];;
                    ret ()) fr)
    as [(rhs & fr2 & _ & ->)|(e & fr' & ->)]; [|by eauto].
  eexists _, _. apply bind_raise, load_json_view.
Qed.

(** C7: the sprite pathway has a parameter list with a repeated name
    ([sprite_data] declares [black_bg] twice), reads a name that is bound
    nowhere ([_get_text_data] reads [datas_name], which raises
    [NameError] once [os.path.dirname(__file__)] has returned, so that
    the function never returns), and returns one value where the
    docstring of [sprite_data] lists two, [view_js] and [view_html]. *)
Theorem sprite_pathway_defects helpers_defined extern data_name tr :
  let result := _get_text_data helpers_defined extern data_name tr in
  (duplicate_argument sprite_data_params = Some "black_bg"
   ∧ length (filter (λ p, p = "black_bg") sprite_data_params) = 2%nat)
  ∧ ((∀ fr, load helpers_defined _get_text_data_locals "datas_name" fr
            = (Raise (NameError "datas_name"), fr))
     ∧ (∀ dir, answer extern tr dirname_call = Return dir →
               result = (Raise (NameError "datas_name"), dirname_call :: tr))
     ∧ (∀ v, result.1 ≠ Return v))
  ∧ (length sprite_data_documented_returns = 2%nat
     ∧ length sprite_data_returned = 1%nat).
Proof.
  intros result. subst result. split; [|split]; [done| |done].
  split; [|split].
  - intros fr. by destruct helpers_defined.
  - intros dir H. destruct helpers_defined; run; by run_with H.
  - intros v. destruct helpers_defined; run; by split_extern.
Qed.

Lemma sprite_pathway_defects_witness :
  answer returning_extern [] dirname_call = Return (VObj 0)
  ∧ _get_text_data false returning_extern (VStr "snippet_view.html") []
    = (Raise (NameError "datas_name"), [dirname_call]).
Proof.
  split; [reflexivity|].
  apply (sprite_pathway_defects false returning_extern
           (VStr "snippet_view.html") []) with (dir := VObj 0).
  reflexivity.
Defined.

(** C8: when the statements of [sprite_data] before the assignment to
    [json_view['params']] return, and so does the call on its right-hand
    side, the assignment raises [NameError] for [json_view], and nothing
    is called after it.  In no case does [sprite_data] return a value. *)
Theorem sprite_data_name_error helpers_defined extern args tr :
  let result := sprite_data helpers_defined extern args tr in
  (∀ fr1 rhs fr2,
     sprite_data_pipeline helpers_defined extern (Frame args tr)
     = (Return (), fr1) →
     sprite_data_params_call helpers_defined extern fr1
     = (Return rhs, fr2) →
     result = (Raise (NameError "json_view"), trace fr2))
  ∧ (∀ v, result.1 ≠ Return v).
Proof.
  intros result. subst result.
  unfold sprite_data, run_def, sprite_data_body. split.
  - intros fr1 rhs fr2 H1 H2.
    rewrite (bind_return _ _ _ _ _ H1).
    erewrite bind_raise; [done|]. unfold assign_item.
    rewrite (bind_return _ _ _ _ _ H2).
    apply bind_raise, load_json_view.
  - intros v.
    destruct (bind_cases (sprite_data_pipeline helpers_defined extern)
                (λ _, assign_item extern
                        (load helpers_defined sprite_data_locals "json_view")
                        (ret (VStr "params"))
                        (sprite_data_params_call helpers_defined extern);;
                      assign "html_view"
                        (call extern
                           (load helpers_defined sprite_data_locals
                              "_json_view_to_html")
                           [load helpers_defined sprite_data_locals
                              "json_view"] []);;
                      load helpers_defined sprite_data_locals "html_view")
                (Frame args tr))
      as [(a & fr1 & _ & ->)|(e & fr' & ->)]; [|done].
    destruct (assign_json_view_raises helpers_defined extern fr1)
      as (e & fr' & Hr).
    by rewrite (bind_raise _ _ _ _ _ Hr).
Qed.

Lemma sprite_data_name_error_witness :
  (sprite_data true returning_extern sample_args []).1
  = Raise (NameError "json_view").
Proof.
  pose (fr1 := (sprite_data_pipeline true returning_extern
                  (Frame sample_args [])).2).
  pose (r := sprite_data_params_call true returning_extern fr1).
  pose (rhs := match r.1 with Return v => v | Raise _ => VNone end).
  destruct (sprite_data_name_error true returning_extern sample_args [])
    as [H _].
  rewrite (H fr1 rhs r.2).
  - reflexivity.
  - vm_compute. reflexivity.
  - vm_compute. reflexivity.
Defined.

(** C9: a call of [_output_sprite] with an [output_sprite] other than
    [None] raises a [NameError] once the two loads of
    [_safe_get_data] have returned: [UnboundLocalError] for the local
    name [stat_map_sprite], or [NameError] for [_save_sprite] itself when
    the helpers are not bound.  Nothing but [_safe_get_data] is called,
    so that no file is written, and the call never returns a value. *)
Theorem output_sprite_name_error helpers_defined extern
    output_sprite stat_map_img mask_img colors cmap tr :
  output_sprite ≠ VNone →
  let e1 := get_data_call stat_map_img in
  let e2 := get_data_call mask_img in
  let result :=
    _output_sprite helpers_defined extern
      output_sprite stat_map_img mask_img colors cmap tr in
  (∀ data mask,
     answer extern tr e1 = Return data →
     answer extern (e1 :: tr) e2 = Return mask →
     ∃ e, result = (Raise e, e2 :: e1 :: tr)
          ∧ is_NameError e = true
          ∧ e = if helpers_defined then UnboundLocalError "stat_map_sprite"
                else NameError "_save_sprite")
  ∧ (∀ v, result.1 ≠ Return v)
  ∧ (result.2 = [e1] ++ tr ∨ result.2 = [e2; e1] ++ tr).
Proof.
  intros Hne e1 e2 result. subst e1 e2 result.
  split; [|split].
  - intros data mask H1 H2. eexists. split; [|split; [|reflexivity]].
    + destruct helpers_defined; run; run_with H1; run_with H2;
        by destruct output_sprite.
    + by destruct helpers_defined.
  - intros v.
    destruct helpers_defined; run; split_extern; try done;
      split_extern; try done; by destruct output_sprite.
  - destruct helpers_defined; run;
      (split_extern; [|by left]); (split_extern; [|by right]);
      right; by destruct output_sprite.
Qed.

Lemma output_sprite_name_error_witness :
  ∃ e,
    _output_sprite true returning_extern
      (VStr "sprite.png") (VObj 1) (VObj 2) (VObj 3) (VStr "gray") []
    = (Raise e, [get_data_call (VObj 2); get_data_call (VObj 1)])
    ∧ is_NameError e = true
    ∧ e = UnboundLocalError "stat_map_sprite".
Proof.
  apply (output_sprite_name_error true returning_extern
           (VStr "sprite.png") (VObj 1) (VObj 2) (VObj 3) (VStr "gray") [])
    with (data := VObj 0) (mask := VObj 1).
  - discriminate.
  - reflexivity.
  - reflexivity.
Defined.

(** C10: a call of [_output_sprite_bg] with [output_sprite_bg = None]
    in which [_safe_get_data], [BytesIO] and [_save_sprite] have
    returned, that is, after the background sprite is rendered into the
    buffer, raises [NameError] for [bg_sprite]; [_bytesIO_to_base64] is
    not called.  In no case does the call return a value. *)
Theorem output_sprite_bg_name_error helpers_defined extern
    bg_img bg_min bg_max tr :
  let result :=
    _output_sprite_bg helpers_defined extern VNone bg_img bg_min bg_max tr in
  (∀ bg_data buffer saved,
     helpers_defined = true →
     let e1 := get_data_call bg_img in
     let e2 := BytesIO_call in
     let e3 := save_bg_call bg_data buffer bg_max bg_min in
     answer extern tr e1 = Return bg_data →
     answer extern (e1 :: tr) e2 = Return buffer →
     answer extern (e2 :: e1 :: tr) e3 = Return saved →
     result = (Raise (NameError "bg_sprite"), e3 :: e2 :: e1 :: tr))
  ∧ (∀ v, result.1 ≠ Return v).
Proof.
  intros result. subst result. split.
  - intros bg_data buffer saved -> e1 e2 e3 H1 H2 H3. subst e1 e2 e3.
    run. run_with H1. run_with H2. by run_with H3.
  - intros v. destruct helpers_defined; run; split_extern; try done;
      split_extern; try done; by split_extern.
Qed.

Lemma output_sprite_bg_name_error_witness :
  _output_sprite_bg true returning_extern VNone (VObj 1) (VObj 2) (VObj 3) []
  = (Raise (NameError "bg_sprite"),
     [save_bg_call (VObj 0) (VObj 1) (VObj 3) (VObj 2); BytesIO_call;
      get_data_call (VObj 1)]).
Proof.
  apply (output_sprite_bg_name_error true returning_extern
           (VObj 1) (VObj 2) (VObj 3) [])
    with (saved := VObj 2); reflexivity.
Defined.

End SpriteProofs.

(* ===================================================================== *)
(** ** Further properties of the sprite pathway and of the test          *)
(* ===================================================================== *)

Module ExtraProofs.
Import Py Brainsprite Pathway TestModule.

Ltac run := vm_compute.

Ltac run_with H := vm_compute in H; rewrite H; vm_compute.

Ltac split_extern :=
  match goal with
  | |- context [match ?e with Return _ => _ | Raise _ => _ end] =>
      destruct e eqn:?
  end; vm_compute.

(** X1: with [output_sprite = None] and the helpers bound,
    [_output_sprite] returns what [_bytesIO_to_base64] answers once every
    call has returned.  The buffer that [BytesIO] made is the one
    [_save_sprite] renders into and the one that is encoded, and
    [_save_sprite] receives [colors['vmax']] before [colors['vmin']]. *)
Theorem output_sprite_base64 extern stat_map_img mask_img colors cmap tr
    data mask buffer vmax vmin saved encoded :
  let e1 := get_data_call stat_map_img in
  let e2 := get_data_call mask_img in
  let e3 := BytesIO_call in
  let e4 := getitem_call colors "vmax" in
  let e5 := getitem_call colors "vmin" in
  let e6 := save_sprite_call data buffer vmax vmin mask cmap in
  let e7 := base64_call buffer in
  answer extern tr e1 = Return data →
  answer extern (e1 :: tr) e2 = Return mask →
  answer extern (e2 :: e1 :: tr) e3 = Return buffer →
  answer extern (e3 :: e2 :: e1 :: tr) e4 = Return vmax →
  answer extern (e4 :: e3 :: e2 :: e1 :: tr) e5 = Return vmin →
  answer extern (e5 :: e4 :: e3 :: e2 :: e1 :: tr) e6 = Return saved →
  answer extern (e6 :: e5 :: e4 :: e3 :: e2 :: e1 :: tr) e7
  = Return encoded →
  _output_sprite true extern VNone stat_map_img mask_img colors cmap tr
  = (Return encoded, e7 :: e6 :: e5 :: e4 :: e3 :: e2 :: e1 :: tr).
Proof.
  intros e1 e2 e3 e4 e5 e6 e7 H1 H2 H3 H4 H5 H6 H7.
  subst e1 e2 e3 e4 e5 e6 e7.
  run. run_with H1. run_with H2. run_with H3. run_with H4. run_with H5.
  run_with H6. by run_with H7.
Qed.

Lemma output_sprite_base64_witness :
  _output_sprite true returning_extern VNone
    (VObj 10) (VObj 11) (VObj 12) (VStr "gray") []
  = (Return (VObj 6),
     [base64_call (VObj 2);
      save_sprite_call (VObj 0) (VObj 2) (VObj 3) (VObj 4) (VObj 1)
        (VStr "gray");
      getitem_call (VObj 12) "vmin"; getitem_call (VObj 12) "vmax";
      BytesIO_call; get_data_call (VObj 11); get_data_call (VObj 10)]).
Proof.
  apply (output_sprite_base64 returning_extern
           (VObj 10) (VObj 11) (VObj 12) (VStr "gray") []
           (VObj 0) (VObj 1) (VObj 2) (VObj 3) (VObj 4) (VObj 5) (VObj 6));
    reflexivity.
Defined.

(** X2: with an [output_sprite_bg] other than [None] and the helpers
    bound, [_output_sprite_bg] hands the given target to [_save_sprite]
    together with [bg_max], [bg_min], no mask and the ['gray'] colormap,
    makes no buffer, and returns the empty string. *)
Theorem output_sprite_bg_saves_file extern output_sprite_bg
    bg_img bg_min bg_max tr bg_data saved :
  output_sprite_bg ≠ VNone →
  let e1 := get_data_call bg_img in
  let e2 := save_bg_call bg_data output_sprite_bg bg_max bg_min in
  answer extern tr e1 = Return bg_data →
  answer extern (e1 :: tr) e2 = Return saved →
  _output_sprite_bg true extern output_sprite_bg bg_img bg_min bg_max tr
  = (Return (VStr ""), e2 :: e1 :: tr).
Proof.
  intros Hne e1 e2 H1 H2. subst e1 e2.
  run. run_with H1. destruct output_sprite_bg; try done; by run_with H2.
Qed.

Lemma output_sprite_bg_saves_file_witness :
  _output_sprite_bg true returning_extern
    (VStr "bg.png") (VObj 10) (VObj 11) (VObj 12) []
  = (Return (VStr ""),
     [save_bg_call (VObj 0) (VStr "bg.png") (VObj 12) (VObj 11);
      get_data_call (VObj 10)]).
Proof.
  apply (output_sprite_bg_saves_file returning_extern
           (VStr "bg.png") (VObj 10) (VObj 11) (VObj 12) []
           (VObj 0) (VObj 1)).
  - discriminate.
  - reflexivity.
  - reflexivity.
Defined.

(** X3: with an [output_cm] other than [None], [_output_cm] raises a
    [NameError] before it calls anything: [UnboundLocalError] for the
    local name [stat_map_cm], or [NameError] for [_save_cm] when the
    helpers are not bound.  The colormap file is never written. *)
Theorem output_cm_file_name_error helpers_defined extern output_cm colors tr :
  output_cm ≠ VNone →
  ∃ e,
    _output_cm helpers_defined extern output_cm colors tr = (Raise e, tr)
    ∧ is_NameError e = true
    ∧ e = if helpers_defined then UnboundLocalError "stat_map_cm"
          else NameError "_save_cm".
Proof.
  intros Hne. eexists. split; [|split; [|reflexivity]].
  - by destruct helpers_defined, output_cm.
  - by destruct helpers_defined.
Qed.

Lemma output_cm_file_name_error_witness :
  ∃ e,
    _output_cm true returning_extern (VStr "cm.png") (VObj 1) []
    = (Raise e, [])
    ∧ is_NameError e = true
    ∧ e = UnboundLocalError "stat_map_cm".
Proof.
  apply (output_cm_file_name_error true returning_extern
           (VStr "cm.png") (VObj 1) []).
  discriminate.
Defined.

(** X4: with [output_cm = None] and the helpers bound, [_output_cm]
    returns what [_bytesIO_to_base64] answers once every call has
    returned; the buffer that [BytesIO] made receives [colors['cmap']]
    and is the one encoded. *)
Theorem output_cm_base64 extern colors tr buffer cmap saved encoded :
  let e1 := BytesIO_call in
  let e2 := getitem_call colors "cmap" in
  let e3 := save_cm_call buffer cmap in
  let e4 := base64_call buffer in
  answer extern tr e1 = Return buffer →
  answer extern (e1 :: tr) e2 = Return cmap →
  answer extern (e2 :: e1 :: tr) e3 = Return saved →
  answer extern (e3 :: e2 :: e1 :: tr) e4 = Return encoded →
  _output_cm true extern VNone colors tr
  = (Return encoded, e4 :: e3 :: e2 :: e1 :: tr).
Proof.
  intros e1 e2 e3 e4 H1 H2 H3 H4. subst e1 e2 e3 e4.
  run. run_with H1. run_with H2. run_with H3. by run_with H4.
Qed.

Lemma output_cm_base64_witness :
  _output_cm true returning_extern VNone (VObj 10) []
  = (Return (VObj 3),
     [base64_call (VObj 0); save_cm_call (VObj 0) (VObj 1);
      getitem_call (VObj 10) "cmap"; BytesIO_call]).
Proof.
  apply (output_cm_base64 returning_extern (VObj 10) []
           (VObj 0) (VObj 1) (VObj 2) (VObj 3)); reflexivity.
Defined.

(** X5: [_view_html] never returns.  Its first statement calls
    [_get_text_data], which raises [NameError] for [datas_name] once
    [os.path.dirname(__file__)] has returned; nothing else is called, so
    no sprite is rendered.  The statements after the first would fail
    in any frame as well: they read [view_html], which is bound nowhere
    (the snippet is assigned to [html_view]). *)
Theorem view_html_never_returns helpers_defined extern args tr :
  let result := _view_html helpers_defined extern args tr in
  (∀ dir, answer extern tr dirname_call = Return dir →
          result = (Raise (NameError "datas_name"), dirname_call :: tr))
  ∧ (∀ v, result.1 ≠ Return v)
  ∧ (result.2 = tr ∨ result.2 = dirname_call :: tr)
  ∧ (∀ fr, _view_html_substitutions helpers_defined extern fr
           = (Raise (NameError "view_html"), fr)).
Proof.
  intros result. subst result. split; [|split; [|split]].
  - intros dir H. destruct helpers_defined; run; by run_with H.
  - intros v. destruct helpers_defined; run; by split_extern.
  - destruct helpers_defined; run; split_extern; auto.
  - intros fr. by destruct helpers_defined.
Qed.

Lemma view_html_never_returns_witness :
  answer returning_extern [] dirname_call = Return (VObj 0)
  ∧ _view_html true returning_extern (replicate 15 (VObj 1)) []
    = (Raise (NameError "datas_name"), [dirname_call]).
Proof.
  split; [reflexivity|].
  apply (view_html_never_returns true returning_extern
           (replicate 15 (VObj 1)) []) with (dir := VObj 0).
  reflexivity.
Defined.

(** *** The test *)

Import Colormap.

Lemma count_cons (c c' : Color) (l : list Color) :
  count c (c' :: l) = ((if decide (c' = c) then 1 else 0) + count c l)%nat.
Proof. unfold count. rewrite filter_cons. by case_decide. Qed.

Lemma count_zero (c : Color) (l : list Color) :
  count c l = 0%nat ↔ c ∉ l.
Proof.
  induction l as [|c' l IH].
  - split; [intros _; apply not_elem_of_nil | done].
  - rewrite count_cons, not_elem_of_cons, <- IH.
    case_decide; [subst; split; [done | by intros [? _]] |].
    simpl. split; [by intros ? | by intros [_ ?]].
Qed.

Lemma count_once_NoDup (l : list Color) :
  forallb (λ c, bool_decide (count c l = 1%nat)) l = true ↔ NoDup l.
Proof.
  rewrite forallb_forall.
  assert (Hiff : (∀ x, In x l → bool_decide (count x l = 1%nat) = true)
                 ↔ (∀ x, x ∈ l → count x l = 1%nat)).
  { split; intros H x Hx.
    - eapply bool_decide_eq_true_1, H. by apply list_elem_of_In.
    - apply bool_decide_eq_true_2, H. by apply list_elem_of_In. }
  rewrite Hiff. clear Hiff.
  induction l as [|c l IH].
  - split; [intros _; constructor | intros _ x Hx; by apply elem_of_nil in Hx].
  - rewrite NoDup_cons, <- IH, <- count_zero. split.
    + intros H. split.
      * specialize (H c (list_elem_of_here _ _)).
        rewrite count_cons, decide_True in H by done. lia.
      * intros x Hx.
        pose proof (H x (list_elem_of_further _ _ _ Hx)) as Hc.
        rewrite count_cons in Hc. case_decide; [|done]. subst.
        assert (count x l = 0%nat) as Hz by lia.
        apply count_zero in Hz. done.
    + intros [Hc Hl] x Hx. rewrite count_cons.
      apply elem_of_cons in Hx as [->|Hx].
      * rewrite decide_True by done. lia.
      * case_decide; [|by apply Hl]. subst.
        apply count_zero in Hc. done.
Qed.

(** X7: the check of lines 16 to 18 of the test, that every entry of the
    colormap is counted exactly once in the list of its entries, holds
    exactly when the entries are pairwise distinct. *)
Theorem unique_check_iff_distinct (cmaplist : list Color) :
  forallb (λ c, bool_decide (count c cmaplist = 1%nat)) cmaplist = true
  ↔ pairwise_distinct cmaplist.
Proof.
  rewrite count_once_NoDup. symmetry.
  apply DedupProofs.pairwise_distinct_NoDup.
Qed.

(** X8: an implementation passes [test_deduplicate_cmap] exactly when,
    for ['cold_hot'] and 4 colors, it returns 4 pairwise distinct entries
    with the annotation left on, and, for the custom colormap and 2
    colors, it returns as many entries as the custom colormap has (4)
    with the annotation turned off. *)
Theorem test_passes_iff (cold_hot : Qc → Color) (impl : implementation) :
  test_deduplicate_cmap cold_hot impl = true
  ↔ (∃ cmap, impl (NamedContinuous cold_hot) 4 true = inr (cmap, true)
             ∧ length cmap = 4%nat ∧ pairwise_distinct cmap)
    ∧ (∃ cmap, impl (CustomDiscrete cmap_custom) 2 true = inr (cmap, false)
               ∧ length cmap = 4%nat).
Proof.
  unfold test_deduplicate_cmap, test_cold_hot, test_custom.
  rewrite andb_true_iff.
  destruct (impl (NamedContinuous cold_hot) 4 true)
    as [e1|[cmap1 v1]] eqn:H1;
  destruct (impl (CustomDiscrete cmap_custom) 2 true)
    as [e2|[cmap2 v2]] eqn:H2;
  try (split; [intros [? ?]; done | intros [(? & ? & _) (? & ? & _)]; done]).
  rewrite !andb_true_iff, !bool_decide_eq_true, negb_true_iff,
    count_once_NoDup. split.
  - intros [[[Hn ->] Hd] [Hm ->]]. split.
    + exists cmap1. split; [done|]. split; [lia|].
      by apply DedupProofs.pairwise_distinct_NoDup.
    + by exists cmap2.
  - intros [(c1 & [= <- <-] & Hn & Hd) (c2 & [= <- <-] & Hm)].
    split; [split; [split; [lia | done]|] | done].
    by apply DedupProofs.pairwise_distinct_NoDup.
Qed.

(** X9: as written, the test cannot reach its assertions: the module
    does not import [html_stat_map], so the call of line 9 raises
    [NameError] before anything is called, whatever follows it. *)
Theorem test_raises_name_error extern (rest : M value) tr :
  test_deduplicate_cmap_run extern rest tr
  = (Raise (NameError "html_stat_map"), tr).
Proof. reflexivity. Qed.

End ExtraProofs.
